(** * A shallow embedding of [main.py]: the Unipile health-check server

    The program is a Flask application with two routes.  At import time it
    reads two environment variables, and when run as a script it pings the
    Unipile API once and then starts the development server.

    The embedding keeps the shape of the source:
    - Python strings are [string], the [dict]s handed to [jsonify] and the
      process environment are finite maps ([gmap string _]);
    - the effects of the program (console output, the outbound HTTP call,
      starting the server, raising and catching exceptions) are threaded
      through a small state-and-exception monad [M] over the trace of
      events performed so far;
    - the network is an oracle [upstream] that answers each outbound request
      with a response or with an exception, possibly depending on everything
      that happened before. *)

From Stdlib Require Import ZArith Ascii String.
From stdpp Require Import gmap strings list.

Local Open Scope string_scope.

(** ** Python built-ins used by the program *)

Module Py.

(** Instances of [Exception].  [exc_str] is what [str(e)] returns: the
    empty string for an exception built without arguments, the argument
    itself for one built from a single string. *)
Record PyException := mkExc { exc_class : string; exc_str : string }.

Definition RuntimeError (msg : string) : PyException := mkExc "RuntimeError" msg.

Definition str (e : PyException) : string := exc_str e.

(** [bool(s)] on a string: true exactly for the non-empty ones. *)
Definition truthy (s : string) : bool :=
  match s with
  | EmptyString => false
  | String _ _ => true
  end.

(** [c in chars] for a character and a string. *)
Fixpoint char_in (c : ascii) (chars : string) : bool :=
  match chars with
  | EmptyString => false
  | String d rest => if Ascii.eqb c d then true else char_in c rest
  end.

(** [s.rstrip(chars)]: drops the longest suffix of [s] made of characters
    of [chars]. *)
Fixpoint rstrip (chars : string) (s : string) : string :=
  match s with
  | EmptyString => EmptyString
  | String c rest =>
      match rstrip chars rest with
      | EmptyString => if char_in c chars then EmptyString else String c EmptyString
      | kept => String c kept
      end
  end.

(** [os.getenv(key, default)]. *)
Definition getenv (environ : gmap string string) (key default : string) : string :=
  match environ !! key with
  | Some v => v
  | None => default
  end.

(** [load_dotenv()]: the variables of the [.env] file are added to the
    process environment; a variable that is already set keeps its value. *)
Definition load_dotenv (dotenv environ : gmap string string) : gmap string string :=
  environ ∪ dotenv.

(** [str.lower] on ASCII letters, used to compare HTTP header names. *)
Definition lower_ascii (c : ascii) : ascii :=
  let n := nat_of_ascii c in
  if Nat.leb 65 n && Nat.leb n 90 then ascii_of_nat (n + 32) else c.

Fixpoint lower (s : string) : string :=
  match s with
  | EmptyString => EmptyString
  | String c rest => String (lower_ascii c) (lower rest)
  end.

(** [n] copies of the character [c]. *)
Fixpoint replicate_char (n : nat) (c : ascii) : string :=
  match n with
  | O => EmptyString
  | S k => String c (replicate_char k c)
  end.

(** [s.endswith(c)] for a single character. *)
Fixpoint ends_with_char (c : ascii) (s : string) : bool :=
  match s with
  | EmptyString => false
  | String d EmptyString => Ascii.eqb d c
  | String _ rest => ends_with_char c rest
  end.

End Py.

Import Py.

(** ** The part of [requests] the program touches *)

Module Requests.

Inductive Method := GET | POST.

(** An outbound call [requests.get(url, headers=..., timeout=...)].  The
    [headers] dict is kept as the list of its items in insertion order. *)
Record Request := mkRequest {
  method : Method;
  url : string;
  headers : list (string * string);
  timeout : Z
}.

(** What the program reads from a [requests.Response]. *)
Record Response := mkResponse {
  status_code : Z;
  text : string
}.

(** [Response.ok]: [raise_for_status()] raises for a client error
    (400..499) or a server error (500..599) and for nothing else; [ok] is
    true when it does not raise. *)
Definition ok (r : Response) : bool :=
  negb ((400 <=? status_code r)%Z && (status_code r <? 600)%Z).

(** Header names are matched without regard to case. *)
Fixpoint header_get (name : string) (hs : list (string * string)) : option string :=
  match hs with
  | [] => None
  | (k, v) :: rest =>
      if String.eqb (lower k) (lower name) then Some v else header_get name rest
  end.

End Requests.

Import Requests.

(** ** The part of Flask the program touches *)

Module Flask.

(** The values the program puts in its JSON bodies. *)
Inductive JVal :=
| JBool (b : bool)
| JInt (n : Z)
| JStr (s : string).

(** A Flask response: a JSON object and an HTTP status. *)
Record HttpResponse := mkHttp {
  json : gmap string JVal;
  status : Z
}.

(** [jsonify(d)] builds a response with the default status 200. *)
Definition jsonify (d : gmap string JVal) : HttpResponse := mkHttp d 200.

(** A view function returns a response, or a pair of a response and a
    status code. *)
Inductive ViewRv :=
| RvResponse (r : HttpResponse)
| RvTuple (r : HttpResponse) (code : Z).

(** Flask's [make_response]: the status of a pair overrides the one of the
    response. *)
Definition make_response (rv : ViewRv) : HttpResponse :=
  match rv with
  | RvResponse r => r
  | RvTuple r code => mkHttp (json r) code
  end.

End Flask.

Import Flask.

(** ** Effects *)

(** What [print] is given. *)
Inductive Printed :=
| PStr (s : string)
| PInt (n : Z)
| PBool (b : bool)
| PRepr (e : PyException).

(** The observable actions of the process, in the order they happen. *)
Inductive Event :=
| EPrint (args : list Printed)
| ERequest (rq : Request)
| ERun (port : Z) (debug : bool).

Inductive Result (A : Type) :=
| Return (a : A)
| Raise (e : PyException).

Arguments Return {A} a.
Arguments Raise {A} e.

(** A computation takes the trace so far and gives a result and the trace
    extended by what it did. *)
Definition M (A : Type) : Type := list Event -> Result A * list Event.

Definition ret {A} (a : A) : M A := fun tr => (Return a, tr).

Definition raise {A} (e : PyException) : M A := fun tr => (Raise e, tr).

Definition bind {A B} (m : M A) (k : A -> M B) : M B :=
  fun tr =>
    match m tr with
    | (Return a, tr') => k a tr'
    | (Raise e, tr') => (Raise e, tr')
    end.

(** [try: body  except Exception as e: handler(e)]. *)
Definition try_except {A} (body : M A) (handler : PyException -> M A) : M A :=
  fun tr =>
    match body tr with
    | (Return a, tr') => (Return a, tr')
    | (Raise e, tr') => handler e tr'
    end.

Definition emit (ev : Event) : M unit := fun tr => (Return tt, (tr ++ [ev])%list).

Definition print (args : list Printed) : M unit := emit (EPrint args).

Declare Scope py_scope.
Delimit Scope py_scope with py.
Notation "x <- m ;; k" := (bind m (fun x => k))
  (at level 100, m at next level, right associativity) : py_scope.
Notation "m ;;; k" := (bind m (fun _ => k))
  (at level 100, right associativity) : py_scope.
Local Open Scope py_scope.

(** ** [main.py] *)

(** The two module-level globals set at import time. *)
Record Globals := mkGlobals {
  UNIPILE_DSN : string;
  UNIPILE_API_KEY : string
}.

Section Program.

(** The network: the answer to an outbound request, given the history. *)
Variable upstream : list Event -> Request -> Result Response.

(** [requests.get]: the call is recorded, and the network answers. *)
Definition requests_get (u : string) (hs : list (string * string)) (t : Z) : M Response :=
  fun tr =>
    let rq := mkRequest GET u hs t in
    (upstream tr rq, (tr ++ [ERequest rq])%list).

(** Lines 11-21: load the environment, or raise. *)
Definition load_config (dotenv environ : gmap string string) : M Globals :=
  print [PStr "Loading environment variables..."] ;;;
  let env := load_dotenv dotenv environ in
  let dsn := rstrip "/" (getenv env "UNIPILE_DSN" "") in
  let key := getenv env "UNIPILE_API_KEY" "" in
  print [PStr "UNIPILE_DSN loaded:"; PBool (truthy dsn)] ;;;
  print [PStr "UNIPILE_API_KEY loaded:"; PBool (truthy key)] ;;;
  if negb (truthy dsn) || negb (truthy key)
  then raise (RuntimeError "Missing UNIPILE_DSN or UNIPILE_API_KEY in .env")
  else ret (mkGlobals dsn key).

Variable g : Globals.

Definition ping_unipile : M Response :=
  let url := UNIPILE_DSN g +:+ "/api/v1/accounts" in
  let headers := [("X-API-KEY", UNIPILE_API_KEY g); ("accept", "application/json")] in
  response <- requests_get url headers 15 ;;
  ret response.

Definition home : M ViewRv :=
  ret (RvResponse (jsonify
    (<["ok" := JBool true]>
     (<["message" := JStr "Flask server is running"]>
      (<["next_step" := JStr "/health/unipile"]> ∅))))).

Definition health_unipile : M ViewRv :=
  try_except
    (r <- ping_unipile ;;
     ret (RvTuple (jsonify
            (<["ok" := JBool (ok r)]>
             (<["status_code" := JInt (status_code r)]>
              (<["response" := JStr (text r)]> ∅))))
          (if ok r then 200 else status_code r)))
    (fun e =>
       ret (RvTuple (jsonify
              (<["ok" := JBool false]>
               (<["error" := JStr (str e)]> ∅)))
            500)).

(** The routes registered by [@app.get]. *)
Definition url_map : list (string * M ViewRv) :=
  [("/", home); ("/health/unipile", health_unipile)].

Fixpoint find_view (path : string) (rules : list (string * M ViewRv)) : option (M ViewRv) :=
  match rules with
  | [] => None
  | (p, view) :: rest => if String.eqb p path then Some view else find_view path rest
  end.

(** Serving one GET request: the view of the matching rule is run and its
    return value turned into a response; [None] when no rule matches. *)
Definition serve_get (path : string) : M (option HttpResponse) :=
  match find_view path url_map with
  | Some view => rv <- view ;; ret (Some (make_response rv))
  | None => ret None
  end.

(** Lines 91-101: the body of [if __name__ == "__main__":]. *)
Definition startup : M unit :=
  print [PStr "Pinging Unipile on startup..."] ;;;
  try_except
    (r <- ping_unipile ;;
     print [PStr "Unipile status code:"; PInt (status_code r)] ;;;
     print [PStr "Unipile response:"; PStr (text r)])
    (fun e => print [PStr "Unipile ping FAILED:"; PRepr e]) ;;;
  print [PStr "Starting Flask server at http://localhost:5000"] ;;;
  emit (ERun 5000 true).

End Program.

(** Running the file: the module body, then the start-up block when the
    module is the script. *)
Definition main_py (upstream : list Event -> Request -> Result Response)
    (name : string) (dotenv environ : gmap string string) : M unit :=
  g <- load_config dotenv environ ;;
  if String.eqb name "__main__" then startup upstream g else ret tt.




(** The upstream body of the worked scenario: the JSON text of an object
    with an empty [items] array. *)
Definition items_body : string :=
  "{" +:+ String (ascii_of_nat 34) "items" +:+ String (ascii_of_nat 34) ":[]}".

(** * Properties *)

(** ** String normalisation *)

Lemma rstrip_all_slashes (n : nat) : rstrip "/" (replicate_char n "/") = "".
Proof.
  induction n as [|n IH]; simpl; [reflexivity|].
  rewrite IH. reflexivity.
Qed.

Lemma rstrip_app_slashes (s : string) (n : nat) :
  rstrip "/" (s +:+ replicate_char n "/") = rstrip "/" s.
Proof.
  induction s as [|c s IH]; simpl.
  - apply rstrip_all_slashes.
  - rewrite IH. reflexivity.
Qed.

Lemma char_in_slash (c : ascii) : char_in c "/" = Ascii.eqb c "/".
Proof. simpl. destruct (Ascii.eqb c "/"); reflexivity. Qed.

Lemma rstrip_fixed (s : string) :
  ends_with_char "/" s = false -> rstrip "/" s = s.
Proof.
  induction s as [|c s IH]; [reflexivity|].
  destruct s as [|d s'].
  - cbn [ends_with_char rstrip]. rewrite char_in_slash. intros ->. reflexivity.
  - intros H. change (ends_with_char "/" (String d s') = false) in H.
    specialize (IH H).
    change (rstrip "/" (String c (String d s')))
      with (match rstrip "/" (String d s') with
            | EmptyString => if char_in c "/" then EmptyString else String c EmptyString
            | kept => String c kept
            end).
    rewrite IH. reflexivity.
Qed.

Lemma rstrip_no_trailing (s : string) :
  ends_with_char "/" (rstrip "/" s) = false.
Proof.
  induction s as [|c s IH]; [reflexivity|].
  cbn [rstrip]. destruct (rstrip "/" s) as [|d k] eqn:E.
  - rewrite char_in_slash. destruct (Ascii.eqb c "/") eqn:Ec; simpl; [reflexivity|exact Ec].
  - exact IH.
Qed.

Lemma rstrip_idempotent (s : string) :
  rstrip "/" (rstrip "/" s) = rstrip "/" s.
Proof. apply rstrip_fixed, rstrip_no_trailing. Qed.

Lemma truthy_true (s : string) : truthy s = true <-> s <> "".
Proof. destruct s; simpl; split; congruence. Qed.

Example rstrip_two_slashes : rstrip "/" "https://host//" = "https://host".
Proof. reflexivity. Qed.

Example rstrip_inner_slash_kept : rstrip "/" "https://host/v1" = "https://host/v1".
Proof. reflexivity. Qed.

Example rstrip_only_slashes : rstrip "/" "///" = "".
Proof. reflexivity. Qed.

Example ok_redirect : ok (mkResponse 304 "") = true.
Proof. reflexivity. Qed.

Example ok_unauthorized : ok (mkResponse 401 "") = false.
Proof. reflexivity. Qed.

(** ** The routes *)

Section Routes.

Variable upstream : list Event -> Request -> Result Response.
Variable g : Globals.

Lemma serve_get_home (tr : list Event) :
  serve_get upstream g "/" tr =
  (rv <- home ;; ret (Some (make_response rv))) tr.
Proof. reflexivity. Qed.

Lemma serve_get_health (tr : list Event) :
  serve_get upstream g "/health/unipile" tr =
  (rv <- health_unipile upstream g ;; ret (Some (make_response rv))) tr.
Proof. reflexivity. Qed.

(** The view of [/health/unipile], by the outcome of the probe. *)
Lemma health_unipile_returned (tr tr' : list Event) (r : Response) :
  ping_unipile upstream g tr = (Return r, tr') ->
  health_unipile upstream g tr =
  (Return (RvTuple (jsonify
             (<["ok" := JBool (ok r)]>
              (<["status_code" := JInt (status_code r)]>
               (<["response" := JStr (text r)]> ∅))))
           (if ok r then 200 else status_code r)), tr').
Proof.
  intros H. unfold health_unipile, try_except, bind at 1. rewrite H. reflexivity.
Qed.

Lemma health_unipile_raised (tr tr' : list Event) (e : PyException) :
  ping_unipile upstream g tr = (Raise e, tr') ->
  health_unipile upstream g tr =
  (Return (RvTuple (jsonify
             (<["ok" := JBool false]> (<["error" := JStr (str e)]> ∅)))
           500), tr').
Proof.
  intros H. unfold health_unipile, try_except, bind at 1. rewrite H. reflexivity.
Qed.

Lemma ok_2xx (r : Response) :
  (200 <= status_code r < 300)%Z -> ok r = true.
Proof.
  intros H. unfold ok.
  destruct (Z.leb_spec 400 (status_code r)); [lia|reflexivity].
Qed.

Lemma ok_false_iff (r : Response) :
  ok r = false <-> (400 <= status_code r < 600)%Z.
Proof.
  unfold ok.
  destruct (Z.leb_spec 400 (status_code r)), (Z.ltb_spec (status_code r) 600);
    simpl; split; intros; try lia; try congruence.
Qed.

End Routes.

(** ** The probe and the loader, in closed form *)

Lemma ping_unipile_eq
    (upstream : list Event -> Request -> Result Response) (g : Globals)
    (tr : list Event) :
  ping_unipile upstream g tr =
  (upstream tr (mkRequest GET (UNIPILE_DSN g +:+ "/api/v1/accounts")
                  [("X-API-KEY", UNIPILE_API_KEY g); ("accept", "application/json")] 15),
   (tr ++ [ERequest (mkRequest GET (UNIPILE_DSN g +:+ "/api/v1/accounts")
                  [("X-API-KEY", UNIPILE_API_KEY g); ("accept", "application/json")] 15)])%list).
Proof.
  unfold ping_unipile, bind, requests_get, ret.
  destruct (upstream tr _); reflexivity.
Qed.

Lemma load_config_eq (dotenv environ : gmap string string) (tr : list Event) :
  load_config dotenv environ tr =
  (let dsn := rstrip "/" (getenv (load_dotenv dotenv environ) "UNIPILE_DSN" "") in
   let key := getenv (load_dotenv dotenv environ) "UNIPILE_API_KEY" "" in
   (if negb (truthy dsn) || negb (truthy key)
    then Raise (RuntimeError "Missing UNIPILE_DSN or UNIPILE_API_KEY in .env")
    else Return (mkGlobals dsn key),
    (tr ++ [EPrint [PStr "Loading environment variables..."];
            EPrint [PStr "UNIPILE_DSN loaded:"; PBool (truthy dsn)];
            EPrint [PStr "UNIPILE_API_KEY loaded:"; PBool (truthy key)]])%list)).
Proof.
  unfold load_config, bind, print, emit, raise, ret. cbn zeta.
  rewrite <- !app_assoc. cbn [app].
  destruct (negb _ || negb _); reflexivity.
Qed.

Lemma getenv_lookup (env : gmap string string) (k v : string) :
  env !! k = Some v -> getenv env k "" = v.
Proof. unfold getenv. intros ->. reflexivity. Qed.

Lemma getenv_missing (env : gmap string string) (k : string) :
  env !! k = None \/ env !! k = Some "" -> getenv env k "" = "".
Proof. unfold getenv. intros [-> | ->]; reflexivity. Qed.

Lemma rstrip_suffix_slashes (s : string) :
  exists n : nat, s = rstrip "/" s +:+ replicate_char n "/".
Proof.
  induction s as [|c s [n IH]]; [exists 0%nat; reflexivity|].
  cbn [rstrip]. destruct (rstrip "/" s) as [|d k] eqn:E.
  - change (s = replicate_char n "/") in IH. rewrite char_in_slash.
    destruct (Ascii.eqb_spec c "/") as [-> |].
    + exists (S n). rewrite IH at 1. reflexivity.
    + exists n. rewrite IH at 1. reflexivity.
  - exists n. rewrite IH at 1. reflexivity.
Qed.

(** The loader on an environment that holds both values. *)
Lemma load_config_loaded (dotenv environ : gmap string string)
    (raw key : string) (tr : list Event) :
  load_dotenv dotenv environ !! "UNIPILE_DSN" = Some raw ->
  load_dotenv dotenv environ !! "UNIPILE_API_KEY" = Some key ->
  rstrip "/" raw <> "" ->
  key <> "" ->
  load_config dotenv environ tr =
  (Return (mkGlobals (rstrip "/" raw) key),
   (tr ++ [EPrint [PStr "Loading environment variables..."];
           EPrint [PStr "UNIPILE_DSN loaded:"; PBool true];
           EPrint [PStr "UNIPILE_API_KEY loaded:"; PBool true]])%list).
Proof.
  intros Hd Hk Hraw Hkey. rewrite load_config_eq. cbn zeta.
  rewrite (getenv_lookup _ _ _ Hd), (getenv_lookup _ _ _ Hk).
  apply truthy_true in Hraw, Hkey. rewrite Hraw, Hkey. reflexivity.
Qed.

(** A loader that returns has printed [True] twice. *)
Lemma load_config_returned (dotenv environ : gmap string string)
    (tr tr0 : list Event) (g : Globals) :
  load_config dotenv environ tr = (Return g, tr0) ->
  g = mkGlobals (rstrip "/" (getenv (load_dotenv dotenv environ) "UNIPILE_DSN" ""))
                (getenv (load_dotenv dotenv environ) "UNIPILE_API_KEY" "") /\
  truthy (UNIPILE_DSN g) = true /\
  truthy (UNIPILE_API_KEY g) = true /\
  tr0 = (tr ++ [EPrint [PStr "Loading environment variables..."];
                EPrint [PStr "UNIPILE_DSN loaded:"; PBool true];
                EPrint [PStr "UNIPILE_API_KEY loaded:"; PBool true]])%list.
Proof.
  rewrite load_config_eq. cbn zeta.
  destruct (truthy (rstrip "/" _)) eqn:Hdsn; simpl; [|discriminate].
  destruct (truthy (getenv _ "UNIPILE_API_KEY" "")) eqn:Hkey; simpl; [|discriminate].
  intros [= <- <-]. simpl. auto.
Qed.





(** ** The health route *)

(** C1, as amended.  When the probe receives a response whose status code is
    a client or server error (400..599, the codes for which [ok] is false),
    [/health/unipile] answers with that same status code and [ok] false. *)
Theorem health_unipile_error_status_relayed
    (upstream : list Event -> Request -> Result Response) (g : Globals)
    (tr tr' : list Event) (r : Response) :
  ping_unipile upstream g tr = (Return r, tr') ->
  (400 <= status_code r < 600)%Z ->
  serve_get upstream g "/health/unipile" tr =
  (Return (Some (mkHttp
     (<["ok" := JBool false]>
      (<["status_code" := JInt (status_code r)]>
       (<["response" := JStr (text r)]> ∅)))
     (status_code r))), tr').
Proof.
  intros Hping Hcode.
  rewrite serve_get_health. unfold bind.
  rewrite (health_unipile_returned _ _ _ _ _ Hping).
  apply ok_false_iff in Hcode. rewrite Hcode. reflexivity.
Qed.

Lemma health_unipile_error_status_relayed_witness :
  serve_get (fun _ _ => Return (mkResponse 401 "Unauthorized"))
    (mkGlobals "https://api.example.com" "secret123") "/health/unipile" [] =
  (Return (Some (mkHttp
     (<["ok" := JBool false]>
      (<["status_code" := JInt 401]>
       (<["response" := JStr "Unauthorized"]> ∅)))
     401)),
   [ERequest (mkRequest GET "https://api.example.com/api/v1/accounts"
      [("X-API-KEY", "secret123"); ("accept", "application/json")] 15)]).
Proof.
  apply (health_unipile_error_status_relayed
           (fun _ _ => Return (mkResponse 401 "Unauthorized"))
           (mkGlobals "https://api.example.com" "secret123")
           [] _ (mkResponse 401 "Unauthorized")).
  - reflexivity.
  - simpl. lia.
Defined.

(** C1 as the specification states it fails: an upstream 304 is not a 2xx
    response, yet the route answers 200 with [ok] true. *)
Lemma health_unipile_non_2xx_not_relayed :
  ~ (forall (r : Response) (tr' : list Event),
       ping_unipile (fun _ _ => Return (mkResponse 304 ""))
         (mkGlobals "https://api.example.com" "secret123") [] = (Return r, tr') ->
       ~ (200 <= status_code r < 300)%Z ->
       exists resp : HttpResponse,
         serve_get (fun _ _ => Return (mkResponse 304 ""))
           (mkGlobals "https://api.example.com" "secret123") "/health/unipile" [] =
         (Return (Some resp), tr') /\
         status resp = status_code r /\
         json resp !! "ok" = Some (JBool false)).
Proof.
  intros H.
  destruct (H (mkResponse 304 "") _ eq_refl) as (resp & Hserve & Hstatus & _).
  - simpl. lia.
  - rewrite serve_get_health in Hserve. unfold bind in Hserve.
    rewrite (health_unipile_returned (fun _ _ => Return (mkResponse 304 ""))
               (mkGlobals "https://api.example.com" "secret123")
               [] _ (mkResponse 304 "") eq_refl) in Hserve.
    simpl in Hserve. injection Hserve as <-. simpl in Hstatus. discriminate.
Qed.

(** C2.  When the probe receives a 2xx response, [/health/unipile] answers
    200 with [ok] true, the upstream status code and the upstream body. *)
Theorem health_unipile_2xx
    (upstream : list Event -> Request -> Result Response) (g : Globals)
    (tr tr' : list Event) (r : Response) :
  ping_unipile upstream g tr = (Return r, tr') ->
  (200 <= status_code r < 300)%Z ->
  serve_get upstream g "/health/unipile" tr =
  (Return (Some (mkHttp
     (<["ok" := JBool true]>
      (<["status_code" := JInt (status_code r)]>
       (<["response" := JStr (text r)]> ∅)))
     200)), tr').
Proof.
  intros Hping Hcode.
  rewrite serve_get_health. unfold bind.
  rewrite (health_unipile_returned _ _ _ _ _ Hping).
  rewrite (ok_2xx r Hcode). reflexivity.
Qed.

Lemma health_unipile_2xx_witness :
  serve_get (fun _ _ => Return (mkResponse 204 ""))
    (mkGlobals "https://api.example.com" "secret123") "/health/unipile" [] =
  (Return (Some (mkHttp
     (<["ok" := JBool true]>
      (<["status_code" := JInt 204]>
       (<["response" := JStr ""]> ∅)))
     200)),
   [ERequest (mkRequest GET "https://api.example.com/api/v1/accounts"
      [("X-API-KEY", "secret123"); ("accept", "application/json")] 15)]).
Proof.
  apply (health_unipile_2xx
           (fun _ _ => Return (mkResponse 204 ""))
           (mkGlobals "https://api.example.com" "secret123")
           [] _ (mkResponse 204 "")).
  - reflexivity.
  - simpl. lia.
Defined.

(** C3, as amended.  When the probe raises an exception [e],
    [/health/unipile] answers 500 with the body [{ok: false, error: str(e)}];
    the error string is whatever [str(e)] is. *)
Theorem health_unipile_exception
    (upstream : list Event -> Request -> Result Response) (g : Globals)
    (tr tr' : list Event) (e : PyException) :
  ping_unipile upstream g tr = (Raise e, tr') ->
  serve_get upstream g "/health/unipile" tr =
  (Return (Some (mkHttp
     (<["ok" := JBool false]> (<["error" := JStr (str e)]> ∅))
     500)), tr').
Proof.
  intros Hping.
  rewrite serve_get_health. unfold bind.
  rewrite (health_unipile_raised _ _ _ _ _ Hping). reflexivity.
Qed.

Lemma health_unipile_exception_witness :
  serve_get (fun _ _ => Raise (mkExc "ConnectionError" "Connection refused"))
    (mkGlobals "https://api.example.com" "secret123") "/health/unipile" [] =
  (Return (Some (mkHttp
     (<["ok" := JBool false]> (<["error" := JStr "Connection refused"]> ∅))
     500)),
   [ERequest (mkRequest GET "https://api.example.com/api/v1/accounts"
      [("X-API-KEY", "secret123"); ("accept", "application/json")] 15)]).
Proof.
  apply (health_unipile_exception
           (fun _ _ => Raise (mkExc "ConnectionError" "Connection refused"))
           (mkGlobals "https://api.example.com" "secret123")
           [] _ (mkExc "ConnectionError" "Connection refused")).
  reflexivity.
Defined.

(** C3 as the specification states it fails: the error string is not always
    non-empty.  [str(MemoryError())] is the empty string, and the route
    relays it as it is. *)
Lemma health_unipile_error_string_may_be_empty :
  ~ (forall (e : PyException) (tr' : list Event),
       ping_unipile (fun _ _ => Raise (mkExc "MemoryError" ""))
         (mkGlobals "https://api.example.com" "secret123") [] = (Raise e, tr') ->
       exists (resp : HttpResponse) (msg : string),
         serve_get (fun _ _ => Raise (mkExc "MemoryError" ""))
           (mkGlobals "https://api.example.com" "secret123") "/health/unipile" [] =
         (Return (Some resp), tr') /\
         status resp = 500%Z /\
         json resp !! "ok" = Some (JBool false) /\
         json resp !! "error" = Some (JStr msg) /\
         msg <> "").
Proof.
  intros H.
  destruct (H (mkExc "MemoryError" "") _ eq_refl)
    as (resp & msg & Hserve & _ & _ & Herror & Hmsg).
  rewrite serve_get_health in Hserve. unfold bind in Hserve.
  rewrite (health_unipile_raised (fun _ _ => Raise (mkExc "MemoryError" ""))
             (mkGlobals "https://api.example.com" "secret123")
             [] _ (mkExc "MemoryError" "") eq_refl) in Hserve.
  simpl in Hserve. injection Hserve as <-.
  simpl in Herror. rewrite lookup_insert_ne in Herror by discriminate.
  rewrite lookup_insert_eq in Herror.
  injection Herror as <-. apply Hmsg. reflexivity.
Qed.

(** C9.  The view of [/health/unipile] never raises: whatever the probe
    does, it returns a JSON response paired with a status code, and the
    route answers with that body and that code. *)
Theorem health_unipile_total
    (upstream : list Event -> Request -> Result Response) (g : Globals)
    (tr : list Event) :
  exists (body : gmap string JVal) (code : Z) (tr' : list Event),
    health_unipile upstream g tr = (Return (RvTuple (jsonify body) code), tr') /\
    serve_get upstream g "/health/unipile" tr =
    (Return (Some (mkHttp body code)), tr').
Proof.
  rewrite serve_get_health. unfold bind.
  destruct (ping_unipile upstream g tr) as [[r|e] tr'] eqn:Hping.
  - rewrite (health_unipile_returned _ _ _ _ _ Hping). eauto.
  - rewrite (health_unipile_raised _ _ _ _ _ Hping). eauto.
Qed.

(** ** The home route *)

(** C4.  [GET /] answers 200 with the fixed body, whatever the network and
    the configuration are, and performs no action. *)
Theorem home_fixed
    (upstream : list Event -> Request -> Result Response) (g : Globals)
    (tr : list Event) :
  serve_get upstream g "/" tr =
  (Return (Some (mkHttp
     (<["ok" := JBool true]>
      (<["message" := JStr "Flask server is running"]>
       (<["next_step" := JStr "/health/unipile"]> ∅)))
     200)), tr).
Proof. reflexivity. Qed.

(** ** The probe *)

(** C5.  For every configuration the probe performs exactly one action, a
    GET request to [{base_url}/api/v1/accounts] carrying the API key and the
    JSON accept header with a timeout of 15 seconds, and its result is the
    answer of the network as it is: a response when there is one, the
    exception when the call fails. *)
Theorem ping_unipile_single_get
    (upstream : list Event -> Request -> Result Response) (g : Globals)
    (tr : list Event) :
  exists rq : Request,
    ping_unipile upstream g tr = (upstream tr rq, (tr ++ [ERequest rq])%list) /\
    method rq = GET /\
    url rq = UNIPILE_DSN g +:+ "/api/v1/accounts" /\
    header_get "X-API-KEY" (headers rq) = Some (UNIPILE_API_KEY g) /\
    header_get "Accept" (headers rq) = Some "application/json" /\
    length (headers rq) = 2%nat /\
    timeout rq = 15%Z /\
    (forall e : PyException,
       upstream tr rq = Raise e ->
       fst (ping_unipile upstream g tr) = Raise e).
Proof.
  eexists. split; [apply ping_unipile_eq|].
  repeat split.
  intros e He. rewrite ping_unipile_eq. exact He.
Qed.

(** ** Start-up *)

(** C6.  The loader stores the base URL with its trailing slashes removed:
    on an environment that holds a base URL with something besides slashes
    and a non-empty key it returns the stripped URL and the key, the stored
    URL does not end in a slash and differs from the given one by slashes at
    the end only.  When either variable is absent or empty in the
    environment the run of the file ends with the [RuntimeError] after
    console output only: no request is made and the server is not
    started. *)
Theorem load_config_strips_and_fails
    (upstream : list Event -> Request -> Result Response) (name : string)
    (dotenv environ : gmap string string) (tr : list Event) :
  (forall raw key : string,
     load_dotenv dotenv environ !! "UNIPILE_DSN" = Some raw ->
     load_dotenv dotenv environ !! "UNIPILE_API_KEY" = Some key ->
     rstrip "/" raw <> "" ->
     key <> "" ->
     load_config dotenv environ tr =
     (Return (mkGlobals (rstrip "/" raw) key),
      (tr ++ [EPrint [PStr "Loading environment variables..."];
              EPrint [PStr "UNIPILE_DSN loaded:"; PBool true];
              EPrint [PStr "UNIPILE_API_KEY loaded:"; PBool true]])%list) /\
     ends_with_char "/" (rstrip "/" raw) = false /\
     exists n : nat, raw = rstrip "/" raw +:+ replicate_char n "/") /\
  (forall (g : Globals) (tr' : list Event),
     load_config dotenv environ tr = (Return g, tr') ->
     UNIPILE_DSN g = rstrip "/" (getenv (load_dotenv dotenv environ) "UNIPILE_DSN" "") /\
     ends_with_char "/" (UNIPILE_DSN g) = false /\
     UNIPILE_DSN g <> "" /\
     UNIPILE_API_KEY g <> "") /\
  (load_dotenv dotenv environ !! "UNIPILE_DSN" = None \/
   load_dotenv dotenv environ !! "UNIPILE_DSN" = Some "" \/
   load_dotenv dotenv environ !! "UNIPILE_API_KEY" = None \/
   load_dotenv dotenv environ !! "UNIPILE_API_KEY" = Some "" ->
   exists added : list Event,
     main_py upstream name dotenv environ tr =
     (Raise (RuntimeError "Missing UNIPILE_DSN or UNIPILE_API_KEY in .env"),
      (tr ++ added)%list) /\
     forall ev : Event, ev ∈ added -> exists args, ev = EPrint args).
Proof.
  split; [|split].
  - intros raw key Hd Hk Hraw Hkey. split; [|split].
    + apply load_config_loaded; assumption.
    + apply rstrip_no_trailing.
    + apply rstrip_suffix_slashes.
  - intros g tr' Hload.
    apply load_config_returned in Hload as (-> & Hdsn & Hkey & _).
    cbn [UNIPILE_DSN UNIPILE_API_KEY] in *.
    repeat split.
    + apply rstrip_no_trailing.
    + apply truthy_true, Hdsn.
    + apply truthy_true, Hkey.
  - intros Hmissing. unfold main_py, bind at 1. rewrite load_config_eq. cbn zeta.
    assert (negb (truthy (rstrip "/" (getenv (load_dotenv dotenv environ) "UNIPILE_DSN" "")))
            || negb (truthy (getenv (load_dotenv dotenv environ) "UNIPILE_API_KEY" "")) = true)
      as ->.
    { destruct Hmissing as [H | [H | [H | H]]].
      - rewrite (getenv_missing _ _ (or_introl H)). reflexivity.
      - rewrite (getenv_missing _ _ (or_intror H)). reflexivity.
      - rewrite (getenv_missing _ "UNIPILE_API_KEY" (or_introl H)).
        apply orb_true_r.
      - rewrite (getenv_missing _ "UNIPILE_API_KEY" (or_intror H)).
        apply orb_true_r. }
    eexists. split; [reflexivity|].
    intros ev Hev. repeat (apply elem_of_cons in Hev as [-> | Hev]; [eauto|]).
    inversion Hev.
Qed.

Lemma load_config_strips_and_fails_witness :
  (load_config ∅
     (<["UNIPILE_DSN" := "https://api.example.com//"]>
      (<["UNIPILE_API_KEY" := "secret123"]> ∅)) [] =
   (Return (mkGlobals "https://api.example.com" "secret123"),
    [EPrint [PStr "Loading environment variables..."];
     EPrint [PStr "UNIPILE_DSN loaded:"; PBool true];
     EPrint [PStr "UNIPILE_API_KEY loaded:"; PBool true]])) /\
  (exists added : list Event,
     main_py (fun _ _ => Return (mkResponse 200 "")) "__main__"
       ∅ (<["UNIPILE_DSN" := "https://api.example.com/"]> ∅) [] =
     (Raise (RuntimeError "Missing UNIPILE_DSN or UNIPILE_API_KEY in .env"),
      ([] ++ added)%list) /\
     forall ev : Event, ev ∈ added -> exists args, ev = EPrint args).
Proof.
  split.
  - destruct (proj1 (load_config_strips_and_fails
               (fun _ _ => Return (mkResponse 200 "")) "__main__" ∅
               (<["UNIPILE_DSN" := "https://api.example.com//"]>
                (<["UNIPILE_API_KEY" := "secret123"]> ∅)) [])
               "https://api.example.com//" "secret123") as (Hload & _ & _).
    + vm_compute. reflexivity.
    + vm_compute. reflexivity.
    + discriminate.
    + discriminate.
    + exact Hload.
  - apply (proj2 (proj2 (load_config_strips_and_fails
             (fun _ _ => Return (mkResponse 200 "")) "__main__" ∅
             (<["UNIPILE_DSN" := "https://api.example.com/"]> ∅) []))).
    right. right. left. vm_compute. reflexivity.
Defined.




(** ** The worked scenario *)

(** C8.  With [UNIPILE_DSN=https://api.example.com/] and
    [UNIPILE_API_KEY=secret123] in the environment, the loader keeps the
    base URL without its slash, the probe is a GET to
    [https://api.example.com/api/v1/accounts] with the header
    [X-API-KEY: secret123], and when the upstream answers 200 with the
    [items] body, [/health/unipile] answers 200 with [ok] true, status code
    200 and that body as the response text. *)
Theorem scenario_example_com
    (upstream : list Event -> Request -> Result Response)
    (dotenv environ : gmap string string) (tr tr1 : list Event) :
  environ !! "UNIPILE_DSN" = Some "https://api.example.com/" ->
  environ !! "UNIPILE_API_KEY" = Some "secret123" ->
  exists (g : Globals) (tr0 : list Event) (rq : Request),
    load_config dotenv environ tr = (Return g, tr0) /\
    UNIPILE_DSN g = "https://api.example.com" /\
    ping_unipile upstream g tr1 = (upstream tr1 rq, (tr1 ++ [ERequest rq])%list) /\
    method rq = GET /\
    url rq = "https://api.example.com/api/v1/accounts" /\
    header_get "X-API-KEY" (headers rq) = Some "secret123" /\
    (upstream tr1 rq = Return (mkResponse 200 items_body) ->
     serve_get upstream g "/health/unipile" tr1 =
     (Return (Some (mkHttp
        (<["ok" := JBool true]>
         (<["status_code" := JInt 200]>
          (<["response" := JStr items_body]> ∅)))
        200)), (tr1 ++ [ERequest rq])%list)).
Proof.
  intros Hdsn Hkey.
  assert (load_dotenv dotenv environ !! "UNIPILE_DSN" = Some "https://api.example.com/") as Hd.
  { unfold load_dotenv. apply lookup_union_Some_l, Hdsn. }
  assert (load_dotenv dotenv environ !! "UNIPILE_API_KEY" = Some "secret123") as Hk.
  { unfold load_dotenv. apply lookup_union_Some_l, Hkey. }
  exists (mkGlobals "https://api.example.com" "secret123").
  eexists. eexists.
  split.
  { rewrite load_config_eq. cbn zeta.
    rewrite (getenv_lookup _ _ _ Hd), (getenv_lookup _ _ _ Hk). reflexivity. }
  split; [reflexivity|].
  split; [apply ping_unipile_eq|].
  repeat split.
  intros Hup.
  rewrite serve_get_health. unfold bind.
  rewrite (health_unipile_returned upstream _ tr1
             (tr1 ++ [ERequest (mkRequest GET "https://api.example.com/api/v1/accounts"
                [("X-API-KEY", "secret123"); ("accept", "application/json")] 15)])%list
             (mkResponse 200 items_body)).
  - reflexivity.
  - rewrite ping_unipile_eq. cbn [UNIPILE_DSN UNIPILE_API_KEY]. rewrite <- Hup. reflexivity.
Qed.

Lemma scenario_example_com_witness :
  exists (g : Globals) (tr0 : list Event) (rq : Request),
    load_config ∅
      (<["UNIPILE_DSN" := "https://api.example.com/"]>
       (<["UNIPILE_API_KEY" := "secret123"]> ∅)) [] = (Return g, tr0) /\
    UNIPILE_DSN g = "https://api.example.com" /\
    ping_unipile (fun _ _ => Return (mkResponse 200 items_body)) g [] =
      (Return (mkResponse 200 items_body), ([] ++ [ERequest rq])%list) /\
    method rq = GET /\
    url rq = "https://api.example.com/api/v1/accounts" /\
    header_get "X-API-KEY" (headers rq) = Some "secret123" /\
    (Return (mkResponse 200 items_body) = Return (mkResponse 200 items_body) ->
     serve_get (fun _ _ => Return (mkResponse 200 items_body)) g "/health/unipile" [] =
     (Return (Some (mkHttp
        (<["ok" := JBool true]>
         (<["status_code" := JInt 200]>
          (<["response" := JStr items_body]> ∅)))
        200)), ([] ++ [ERequest rq])%list)).
Proof.
  apply (scenario_example_com
           (fun _ _ => Return (mkResponse 200 items_body)) ∅
           (<["UNIPILE_DSN" := "https://api.example.com/"]>
            (<["UNIPILE_API_KEY" := "secret123"]> ∅)) [] []).
  - vm_compute. reflexivity.
  - vm_compute. reflexivity.
Defined.

(** ** Normalisation of the base URL *)

(** C10.  Whatever number of slashes ends the value of [UNIPILE_DSN], the
    loader keeps the part before them, the URL of the probe is that part
    followed by [/api/v1/accounts], and stripping a stripped value changes
    nothing. *)
Theorem base_url_normalization
    (upstream : list Event -> Request -> Result Response)
    (b : string) (n : nat) :
  ends_with_char "/" b = false ->
  rstrip "/" (b +:+ replicate_char n "/") = b /\
  (forall (key : string) (tr : list Event),
     exists rq : Request,
       ping_unipile upstream (mkGlobals (rstrip "/" (b +:+ replicate_char n "/")) key) tr =
       (upstream tr rq, (tr ++ [ERequest rq])%list) /\
       url rq = b +:+ "/api/v1/accounts") /\
  (forall (dotenv environ : gmap string string) (key : string) (tr : list Event),
     load_dotenv dotenv environ !! "UNIPILE_DSN" = Some (b +:+ replicate_char n "/") ->
     load_dotenv dotenv environ !! "UNIPILE_API_KEY" = Some key ->
     b <> "" -> key <> "" ->
     exists tr0 : list Event,
       load_config dotenv environ tr = (Return (mkGlobals b key), tr0)) /\
  (forall s : string, rstrip "/" (rstrip "/" s) = rstrip "/" s).
Proof.
  intros Hb.
  assert (rstrip "/" (b +:+ replicate_char n "/") = b) as Hstrip.
  { rewrite rstrip_app_slashes. apply rstrip_fixed, Hb. }
  split; [exact Hstrip|].
  split; [|split].
  - intros key tr. eexists. split; [apply ping_unipile_eq|].
    cbn [url UNIPILE_DSN]. rewrite Hstrip. reflexivity.
  - intros dotenv environ key tr Hd Hk Hbne Hkne.
    eexists. rewrite load_config_eq. cbn zeta.
    rewrite (getenv_lookup _ _ _ Hd), (getenv_lookup _ _ _ Hk), Hstrip.
    apply truthy_true in Hbne, Hkne. rewrite Hbne, Hkne. reflexivity.
  - apply rstrip_idempotent.
Qed.

Lemma base_url_normalization_witness :
  rstrip "/" "https://api.example.com///" = "https://api.example.com" /\
  (forall (key : string) (tr : list Event),
     exists rq : Request,
       ping_unipile (fun _ _ => Return (mkResponse 200 ""))
         (mkGlobals (rstrip "/" "https://api.example.com///") key) tr =
       (Return (mkResponse 200 ""), (tr ++ [ERequest rq])%list) /\
       url rq = "https://api.example.com/api/v1/accounts").
Proof.
  pose proof (base_url_normalization (fun _ _ => Return (mkResponse 200 ""))
                "https://api.example.com" 3 eq_refl) as (H1 & H2 & _).
  split; [exact H1|exact H2].
Defined.

(** * Further properties of the code *)

(** ** More on [rstrip] (line 14) *)

Lemma rstrip_empty_all_slashes (s : string) :
  rstrip "/" s = "" -> exists n : nat, s = replicate_char n "/".
Proof.
  induction s as [|c s IH]; [exists 0%nat; reflexivity|].
  cbn [rstrip]. destruct (rstrip "/" s) as [|d k]; [|discriminate].
  rewrite char_in_slash. destruct (Ascii.eqb_spec c "/") as [-> |]; [|discriminate].
  intros _. destruct (IH eq_refl) as [n ->]. exists (S n). reflexivity.
Qed.

(** X1.  Stripping only ever removes slashes from the end: every string is
    its stripped form followed by some number of slashes, and the stripped
    form does not end in a slash. *)
Theorem rstrip_removes_only_trailing_slashes (s : string) :
  exists n : nat,
    s = rstrip "/" s +:+ replicate_char n "/" /\
    ends_with_char "/" (rstrip "/" s) = false.
Proof.
  assert (exists n : nat, s = rstrip "/" s +:+ replicate_char n "/") as [n Hn].
  { induction s as [|c s [n IH]]; [exists 0%nat; reflexivity|].
    cbn [rstrip]. destruct (rstrip "/" s) as [|d k] eqn:E.
    - change (s = replicate_char n "/") in IH. rewrite char_in_slash.
      destruct (Ascii.eqb_spec c "/") as [-> |].
      + exists (S n). rewrite IH at 1. reflexivity.
      + exists n. rewrite IH at 1. reflexivity.
    - exists n. rewrite IH at 1. reflexivity. }
  exists n. split; [exact Hn|apply rstrip_no_trailing].
Qed.

(** ** More on the loader (lines 11-21) *)

(** X2.  A base URL made of slashes only counts as missing: the run of the
    file ends with the [RuntimeError], having printed that the DSN is not
    loaded, and makes no request and starts no server. *)
Theorem slashes_only_dsn_is_fatal
    (upstream : list Event -> Request -> Result Response) (name : string)
    (dotenv environ : gmap string string) (n : nat) (tr : list Event) :
  load_dotenv dotenv environ !! "UNIPILE_DSN" = Some (replicate_char n "/") ->
  main_py upstream name dotenv environ tr =
  (Raise (RuntimeError "Missing UNIPILE_DSN or UNIPILE_API_KEY in .env"),
   (tr ++ [EPrint [PStr "Loading environment variables..."];
           EPrint [PStr "UNIPILE_DSN loaded:"; PBool false];
           EPrint [PStr "UNIPILE_API_KEY loaded:";
                   PBool (truthy (getenv (load_dotenv dotenv environ) "UNIPILE_API_KEY" ""))]])%list).
Proof.
  intros Hd. unfold main_py, bind at 1. rewrite load_config_eq. cbn zeta.
  rewrite (getenv_lookup _ _ _ Hd), rstrip_all_slashes. reflexivity.
Qed.

Lemma slashes_only_dsn_is_fatal_witness :
  main_py (fun _ _ => Return (mkResponse 200 "")) "__main__" ∅
    (<["UNIPILE_DSN" := "//"]> (<["UNIPILE_API_KEY" := "secret123"]> ∅)) [] =
  (Raise (RuntimeError "Missing UNIPILE_DSN or UNIPILE_API_KEY in .env"),
   [EPrint [PStr "Loading environment variables..."];
    EPrint [PStr "UNIPILE_DSN loaded:"; PBool false];
    EPrint [PStr "UNIPILE_API_KEY loaded:"; PBool true]]).
Proof.
  rewrite (slashes_only_dsn_is_fatal (fun _ _ => Return (mkResponse 200 "")) "__main__" ∅
             (<["UNIPILE_DSN" := "//"]> (<["UNIPILE_API_KEY" := "secret123"]> ∅)) 2 []).
  - vm_compute. reflexivity.
  - vm_compute. reflexivity.
Defined.

(** X3.  The configuration loads exactly when the API key is set to a
    non-empty value and the base URL is set to a value that is not made of
    slashes only; what is loaded is then the stripped base URL and the key
    exactly as it was given. *)
Theorem load_config_succeeds_iff
    (dotenv environ : gmap string string) (tr : list Event) :
  ((exists (g : Globals) (tr' : list Event),
      load_config dotenv environ tr = (Return g, tr')) <->
   (exists raw key : string,
      load_dotenv dotenv environ !! "UNIPILE_DSN" = Some raw /\
      load_dotenv dotenv environ !! "UNIPILE_API_KEY" = Some key /\
      key <> "" /\
      (forall n : nat, raw <> replicate_char n "/"))) /\
  (forall raw key : string,
     load_dotenv dotenv environ !! "UNIPILE_DSN" = Some raw ->
     load_dotenv dotenv environ !! "UNIPILE_API_KEY" = Some key ->
     key <> "" ->
     (forall n : nat, raw <> replicate_char n "/") ->
     load_config dotenv environ tr =
     (Return (mkGlobals (rstrip "/" raw) key),
      (tr ++ [EPrint [PStr "Loading environment variables..."];
              EPrint [PStr "UNIPILE_DSN loaded:"; PBool true];
              EPrint [PStr "UNIPILE_API_KEY loaded:"; PBool true]])%list)).
Proof.
  assert (forall raw key : string,
            load_dotenv dotenv environ !! "UNIPILE_DSN" = Some raw ->
            load_dotenv dotenv environ !! "UNIPILE_API_KEY" = Some key ->
            key <> "" ->
            (forall n : nat, raw <> replicate_char n "/") ->
            load_config dotenv environ tr =
            (Return (mkGlobals (rstrip "/" raw) key),
             (tr ++ [EPrint [PStr "Loading environment variables..."];
                     EPrint [PStr "UNIPILE_DSN loaded:"; PBool true];
                     EPrint [PStr "UNIPILE_API_KEY loaded:"; PBool true]])%list)) as Hloads.
  { intros raw key Hd Hk Hkey Hraw.
    apply load_config_loaded; try assumption.
    intros E. destruct (rstrip_empty_all_slashes raw E) as [n Hn].
    exact (Hraw n Hn). }
  split; [split|exact Hloads].
  - rewrite load_config_eq. cbn zeta. unfold getenv.
    intros (g & tr' & H).
    destruct (load_dotenv dotenv environ !! "UNIPILE_DSN") as [raw|];
      [|simpl in H; discriminate].
    destruct (load_dotenv dotenv environ !! "UNIPILE_API_KEY") as [key|];
      [|rewrite orb_true_r in H; discriminate].
    destruct (truthy (rstrip "/" raw)) eqn:Hraw; [|simpl in H; discriminate].
    destruct (truthy key) eqn:Hkey; [|simpl in H; discriminate].
    exists raw, key. repeat split.
    + apply truthy_true, Hkey.
    + intros n ->. rewrite rstrip_all_slashes in Hraw. discriminate.
  - intros (raw & key & Hd & Hk & Hkey & Hraw).
    rewrite (Hloads raw key Hd Hk Hkey Hraw). eauto.
Qed.

Lemma load_config_succeeds_iff_witness :
  load_config (<["UNIPILE_API_KEY" := "secret123/"]> ∅)
    (<["UNIPILE_DSN" := "https://api.example.com//"]> ∅) [] =
  (Return (mkGlobals "https://api.example.com" "secret123/"),
   [EPrint [PStr "Loading environment variables..."];
    EPrint [PStr "UNIPILE_DSN loaded:"; PBool true];
    EPrint [PStr "UNIPILE_API_KEY loaded:"; PBool true]]).
Proof.
  apply (proj2 (load_config_succeeds_iff
                  (<["UNIPILE_API_KEY" := "secret123/"]> ∅)
                  (<["UNIPILE_DSN" := "https://api.example.com//"]> ∅) [])
           "https://api.example.com//" "secret123/").
  - vm_compute. reflexivity.
  - vm_compute. reflexivity.
  - discriminate.
  - intros [|n]; discriminate.
Defined.

(** X4.  Loading prints only whether each variable is set: any two
    configurations that load produce the same console output, whatever the
    base URLs and the keys are. *)
Theorem load_config_output_hides_values
    (dotenv1 environ1 dotenv2 environ2 : gmap string string)
    (tr tr1 tr2 : list Event) (g1 g2 : Globals) :
  load_config dotenv1 environ1 tr = (Return g1, tr1) ->
  load_config dotenv2 environ2 tr = (Return g2, tr2) ->
  tr1 = tr2.
Proof.
  rewrite !load_config_eq. cbn zeta.
  destruct (truthy (rstrip "/" (getenv (load_dotenv dotenv1 environ1) _ _)));
    [|simpl; discriminate].
  destruct (truthy (getenv (load_dotenv dotenv1 environ1) "UNIPILE_API_KEY" ""));
    [|simpl; discriminate].
  destruct (truthy (rstrip "/" (getenv (load_dotenv dotenv2 environ2) _ _)));
    [|simpl; discriminate].
  destruct (truthy (getenv (load_dotenv dotenv2 environ2) "UNIPILE_API_KEY" ""));
    [|simpl; discriminate].
  simpl. intros [= _ <-] [= _ <-]. reflexivity.
Qed.

Lemma load_config_output_hides_values_witness :
  [EPrint [PStr "Loading environment variables..."];
   EPrint [PStr "UNIPILE_DSN loaded:"; PBool true];
   EPrint [PStr "UNIPILE_API_KEY loaded:"; PBool true]] =
  snd (load_config (<["UNIPILE_API_KEY" := "other-key"]> ∅)
         (<["UNIPILE_DSN" := "http://localhost:8080"]> ∅) []).
Proof.
  apply (load_config_output_hides_values
           ∅ (<["UNIPILE_DSN" := "https://api.example.com/"]>
              (<["UNIPILE_API_KEY" := "secret123"]> ∅))
           (<["UNIPILE_API_KEY" := "other-key"]> ∅)
           (<["UNIPILE_DSN" := "http://localhost:8080"]> ∅)
           [] _ _
           (mkGlobals "https://api.example.com" "secret123")
           (mkGlobals "http://localhost:8080" "other-key")).
  - vm_compute. reflexivity.
  - vm_compute. reflexivity.
Defined.

(** ** The [__main__] guard (line 91) *)

(** X5.  When the file is loaded under any other name than [__main__], a
    loaded configuration is all that happens: no probe is made and the
    server is not started. *)
Theorem imported_module_does_not_probe
    (upstream : list Event -> Request -> Result Response) (name : string)
    (dotenv environ : gmap string string) (tr tr0 : list Event) (g : Globals) :
  name <> "__main__" ->
  load_config dotenv environ tr = (Return g, tr0) ->
  main_py upstream name dotenv environ tr = (Return tt, tr0).
Proof.
  intros Hname Hload. unfold main_py, bind. rewrite Hload.
  apply String.eqb_neq in Hname. rewrite Hname. reflexivity.
Qed.

Lemma imported_module_does_not_probe_witness :
  main_py (fun _ _ => Return (mkResponse 200 "")) "main" ∅
    (<["UNIPILE_DSN" := "https://api.example.com/"]>
     (<["UNIPILE_API_KEY" := "secret123"]> ∅)) [] =
  (Return tt,
   [EPrint [PStr "Loading environment variables..."];
    EPrint [PStr "UNIPILE_DSN loaded:"; PBool true];
    EPrint [PStr "UNIPILE_API_KEY loaded:"; PBool true]]).
Proof.
  apply (imported_module_does_not_probe
           (fun _ _ => Return (mkResponse 200 "")) "main" ∅
           (<["UNIPILE_DSN" := "https://api.example.com/"]>
            (<["UNIPILE_API_KEY" := "secret123"]> ∅)) [] _
           (mkGlobals "https://api.example.com" "secret123")).
  - discriminate.
  - vm_compute. reflexivity.
Defined.

(** ** More on the health route (lines 67-84) *)

(** X6.  Every call of [/health/unipile] makes exactly one upstream request,
    the one of the probe, and does nothing else: there is no retry after a
    failure, nothing is printed, and the answer is always a response. *)
Theorem health_route_single_request
    (upstream : list Event -> Request -> Result Response) (g : Globals)
    (tr : list Event) :
  exists resp : HttpResponse,
    serve_get upstream g "/health/unipile" tr =
    (Return (Some resp),
     (tr ++ [ERequest (mkRequest GET (UNIPILE_DSN g +:+ "/api/v1/accounts")
                [("X-API-KEY", UNIPILE_API_KEY g); ("accept", "application/json")] 15)])%list).
Proof.
  rewrite serve_get_health. unfold bind, health_unipile, try_except, bind.
  rewrite ping_unipile_eq.
  destruct (upstream tr _); eexists; reflexivity.
Qed.

(** X7.  When the probe receives a response whose status code is outside
    400..599 (the 2xx codes, but also 1xx, 3xx and anything else for which
    [ok] holds), the route answers 200 with [ok] true, and the upstream
    code is only visible in the body. *)
Theorem health_unipile_ok_codes
    (upstream : list Event -> Request -> Result Response) (g : Globals)
    (tr tr' : list Event) (r : Response) :
  ping_unipile upstream g tr = (Return r, tr') ->
  ~ (400 <= status_code r < 600)%Z ->
  serve_get upstream g "/health/unipile" tr =
  (Return (Some (mkHttp
     (<["ok" := JBool true]>
      (<["status_code" := JInt (status_code r)]>
       (<["response" := JStr (text r)]> ∅)))
     200)), tr').
Proof.
  intros Hping Hcode.
  rewrite serve_get_health. unfold bind.
  rewrite (health_unipile_returned _ _ _ _ _ Hping).
  destruct (ok r) eqn:Hok; [reflexivity|].
  apply ok_false_iff in Hok. contradiction.
Qed.

Lemma health_unipile_ok_codes_witness :
  serve_get (fun _ _ => Return (mkResponse 304 ""))
    (mkGlobals "https://api.example.com" "secret123") "/health/unipile" [] =
  (Return (Some (mkHttp
     (<["ok" := JBool true]>
      (<["status_code" := JInt 304]>
       (<["response" := JStr ""]> ∅)))
     200)),
   [ERequest (mkRequest GET "https://api.example.com/api/v1/accounts"
      [("X-API-KEY", "secret123"); ("accept", "application/json")] 15)]).
Proof.
  apply (health_unipile_ok_codes
           (fun _ _ => Return (mkResponse 304 ""))
           (mkGlobals "https://api.example.com" "secret123")
           [] _ (mkResponse 304 "")).
  - reflexivity.
  - simpl. lia.
Defined.

(** X8.  The status of the answer of [/health/unipile] is 200 or an error
    code in 400..599; informational and redirection codes of the upstream
    are never passed on. *)
Theorem health_route_status_range
    (upstream : list Event -> Request -> Result Response) (g : Globals)
    (tr tr' : list Event) (resp : HttpResponse) :
  serve_get upstream g "/health/unipile" tr = (Return (Some resp), tr') ->
  status resp = 200%Z \/ (400 <= status resp < 600)%Z.
Proof.
  rewrite serve_get_health. unfold bind.
  destruct (ping_unipile upstream g tr) as [[r|e] tr1] eqn:Hping.
  - rewrite (health_unipile_returned _ _ _ _ _ Hping).
    cbn [ret make_response jsonify json]. intros [= <- _]. cbn [status].
    destruct (ok r) eqn:Hok; [left; reflexivity|right].
    apply ok_false_iff, Hok.
  - rewrite (health_unipile_raised _ _ _ _ _ Hping).
    cbn [ret make_response jsonify json]. intros [= <- _]. cbn [status].
    right. lia.
Qed.

Lemma health_route_status_range_witness :
  status (mkHttp
     (<["ok" := JBool true]>
      (<["status_code" := JInt 302]>
       (<["response" := JStr "Found"]> ∅))) 200) = 200%Z \/
  (400 <= status (mkHttp
     (<["ok" := JBool true]>
      (<["status_code" := JInt 302]>
       (<["response" := JStr "Found"]> ∅))) 200) < 600)%Z.
Proof.
  apply (health_route_status_range
           (fun _ _ => Return (mkResponse 302 "Found"))
           (mkGlobals "https://api.example.com" "secret123")
           []
           [ERequest (mkRequest GET "https://api.example.com/api/v1/accounts"
              [("X-API-KEY", "secret123"); ("accept", "application/json")] 15)]).
  reflexivity.
Defined.

(** X9.  The [ok] field of the body and the status of the answer agree: the
    body always has an [ok] field, and it is true exactly when the status
    is 200. *)
Theorem health_route_ok_matches_status
    (upstream : list Event -> Request -> Result Response) (g : Globals)
    (tr tr' : list Event) (resp : HttpResponse) :
  serve_get upstream g "/health/unipile" tr = (Return (Some resp), tr') ->
  exists b : bool,
    json resp !! "ok" = Some (JBool b) /\
    (b = true <-> status resp = 200%Z).
Proof.
  rewrite serve_get_health. unfold bind.
  destruct (ping_unipile upstream g tr) as [[r|e] tr1] eqn:Hping.
  - rewrite (health_unipile_returned _ _ _ _ _ Hping).
    cbn [ret make_response jsonify json]. intros [= <- _]. cbn [status json].
    exists (ok r). split; [apply lookup_insert_eq|].
    destruct (ok r) eqn:Hok; [tauto|].
    apply ok_false_iff in Hok. split; [discriminate|lia].
  - rewrite (health_unipile_raised _ _ _ _ _ Hping).
    cbn [ret make_response jsonify json]. intros [= <- _]. cbn [status json].
    exists false. split; [apply lookup_insert_eq|].
    split; discriminate.
Qed.

Lemma health_route_ok_matches_status_witness :
  exists b : bool,
    json (mkHttp (<["ok" := JBool false]> (<["error" := JStr "timed out"]> ∅)) 500)
      !! "ok" = Some (JBool b) /\
    (b = true <->
     status (mkHttp (<["ok" := JBool false]> (<["error" := JStr "timed out"]> ∅)) 500)
     = 200%Z).
Proof.
  apply (health_route_ok_matches_status
           (fun _ _ => Raise (mkExc "ReadTimeout" "timed out"))
           (mkGlobals "https://api.example.com" "secret123")
           []
           [ERequest (mkRequest GET "https://api.example.com/api/v1/accounts"
              [("X-API-KEY", "secret123"); ("accept", "application/json")] 15)]).
  reflexivity.
Defined.
